(** * Friendship request router

    A shallow embedding of
    [src/server/api/routers/friendship-request-router.ts]: the two guards
    [canSendFriendshipRequest] and [canAnswerFriendshipRequest] and the
    three mutations [send], [accept] and [decline] of
    [friendshipRequestRouter], over a relational store holding the
    [users] and [friendships] tables.

    Asynchronous database code is written in a small state-and-error
    monad [Async]: the state is the connection (the tables and the
    schedule of storage faults still to come), an exception is an [Err]
    result. *)

From Stdlib Require Import ZArith List Bool Lia Permutation.
Import ListNotations.
Local Open Scope Z_scope.

(** ** Schemas *)

(** [FriendshipStatusSchema.Values] *)
Inductive FriendshipStatus : Type := requested | accepted | declined.

Definition FriendshipStatus_eqb (a b : FriendshipStatus) : bool :=
  match a, b with
  | requested, requested | accepted, accepted | declined, declined => true
  | _, _ => false
  end.

(** One row of the [friendships] table. *)
Module Friendships.
Record row : Type := mk
  { id : Z; userId : Z; friendUserId : Z; status : FriendshipStatus }.

Definition set_status (s : FriendshipStatus) (r : row) : row :=
  {| id := id r; userId := userId r; friendUserId := friendUserId r;
     status := s |}.
End Friendships.

(** The part of the database the router touches.  Only the [id] column of
    [users] is ever read. *)
Record Database : Type := mkDatabase
  { users : list Z; friendships : list Friendships.row }.

(** [SendFriendshipRequestInputSchema] and
    [AnswerFriendshipRequestInputSchema] are the same object schema. *)
Record Input : Type := mkInput { friendUserId : Z }.

(** The context after [authGuard]: the session of the acting user. *)
Record Context : Type := mkContext { session_userId : Z }.

(** ** Errors and the [Async] monad *)

Inductive TRPC_ERROR_CODE : Type := BAD_REQUEST.

Inductive Error : Type :=
| TRPCError (code : TRPC_ERROR_CODE)
| UniqueConstraintError
| StorageFailure.

(** The names the specification gives to the two guard errors; the router
    raises the same [TRPCError] for both. *)
Definition InvalidTarget : Error := TRPCError BAD_REQUEST.
Definition NoPendingRequest : Error := TRPCError BAD_REQUEST.

Inductive Result (A : Type) : Type :=
| Ok (a : A)
| Err (e : Error).
Arguments Ok {A} a.
Arguments Err {A} e.

(** A connection: the tables, and for each statement still to be sent
    whether the storage engine fails on it ([true]); past the end of the
    schedule nothing fails. *)
Record Conn : Type := mkConn { db : Database; faults : list bool }.

Definition Async (A : Type) : Type := Conn -> Result A * Conn.

Definition ret {A} (a : A) : Async A := fun c => (Ok a, c).

Definition throw {A} (e : Error) : Async A := fun c => (Err e, c).

Definition bind {A B} (m : Async A) (k : A -> Async B) : Async B :=
  fun c =>
    match m c with
    | (Ok a, c1) => k a c1
    | (Err e, c1) => (Err e, c1)
    end.

Declare Scope async_scope.
Delimit Scope async_scope with async.
Notation "'let*' x <- m 'in' k" := (bind m (fun x => k))
  (at level 10, x name, m at level 100, k at level 200) : async_scope.
Notation "'await' m ;; k" := (bind m (fun _ => k))
  (at level 10, m at level 100, k at level 200) : async_scope.
Local Open Scope async_scope.

(** Running an operation on a database under a fault schedule; the
    observable outcome is the result and the tables left behind. *)
Definition run {A} (m : Async A) (d : Database) (fs : list bool)
  : Result A * Database :=
  let (r, c) := m (mkConn d fs) in (r, db c).

(** ** The query builder *)

(** One statement sent to the storage engine: it either fails there,
    leaving the tables alone, or runs [q]. *)
Definition execute {A} (q : Database -> Result A * Database) : Async A :=
  fun c =>
    if hd false (faults c)
    then (Err StorageFailure, mkConn (db c) (tl (faults c)))
    else let (r, d) := q (db c) in (r, mkConn d (tl (faults c))).

(** [selectFrom(table).where(..).select(..).limit(n)] *)
Definition selectFrom {R S} (table : Database -> list R)
    (where_ : R -> bool) (select : R -> S) (limit : nat)
  : Database -> list S :=
  fun d => firstn limit (map select (filter where_ (table d))).

(** [executeQuery(query.compile())]: the result rows. *)
Definition executeQuery {S} (q : Database -> list S) : Async (list S) :=
  execute (fun d => (Ok (q d), d)).

(** [executeTakeFirst()]: the first row, or [undefined]. *)
Definition executeTakeFirst {S} (q : Database -> list S)
  : Async (option S) :=
  execute (fun d => (Ok (hd_error (q d)), d)).

(** [executeTakeFirstOrThrow(errorFactory)] *)
Definition executeTakeFirstOrThrow {S} (q : Database -> list S)
    (e : Error) : Async S :=
  let* r <- executeTakeFirst q in
  match r with
  | Some x => ret x
  | None => throw e
  end.

(** The [where] clauses used on [friendships]; chained clauses are a
    conjunction. *)
Definition where_userId (v : Z) (r : Friendships.row) : bool :=
  Friendships.userId r =? v.
Definition where_friendUserId (v : Z) (r : Friendships.row) : bool :=
  Friendships.friendUserId r =? v.
Definition where_status (s : FriendshipStatus) (r : Friendships.row) : bool :=
  FriendshipStatus_eqb (Friendships.status r) s.

Definition where3 (u f : Z) (s : FriendshipStatus) (r : Friendships.row)
  : bool :=
  where_userId u r && where_friendUserId f r && where_status s r.

Definition where2 (u f : Z) (r : Friendships.row) : bool :=
  where_userId u r && where_friendUserId f r.

(** [updateTable('friendships').where(..).set({ status })]: every matching
    row is rewritten where it stands; the result is the number of rows
    updated. *)
Definition update_rows (where_ : Friendships.row -> bool) (s : FriendshipStatus)
    (rows : list Friendships.row) : list Friendships.row :=
  map (fun r => if where_ r then Friendships.set_status s r else r) rows.

Definition updateTable_friendships (where_ : Friendships.row -> bool)
    (s : FriendshipStatus) : Async nat :=
  execute (fun d =>
    (Ok (length (filter where_ (friendships d))),
     mkDatabase (users d) (update_rows where_ s (friendships d)))).

(** The key given to an inserted row: one past the largest key in use. *)
Definition next_id (rows : list Friendships.row) : Z :=
  1 + fold_right Z.max 0 (map Friendships.id rows).

(** Modelled from the spec: the declaration of the [friendships] table (the
    migration) is not among the sources.  The data model gives it at most
    one edge per ordered pair [(userId, friendUserId)], kept by a unique
    constraint at the storage layer, so that an insert which would add a
    second row for a pair is refused with a conflict error; this is also
    the error of the re-request bug described in [send].

    [insertInto('friendships').values({ userId, friendUserId, status })] *)
Definition insertInto_friendships (u f : Z) (s : FriendshipStatus)
  : Async unit :=
  execute (fun d =>
    if existsb (where2 u f) (friendships d)
    then (Err UniqueConstraintError, d)
    else (Ok tt,
          mkDatabase (users d)
            (friendships d
               ++ [Friendships.mk (next_id (friendships d)) u f s]))).

(** [BEGIN] and [COMMIT] are statements too; they change no row. *)
Definition control_statement : Async unit :=
  execute (fun d => (Ok tt, d)).

(** [db.transaction().execute(callback)]: the callback runs between
    [BEGIN] and [COMMIT]; when it throws, or the commit fails, the tables
    are rolled back to what they were and the error is thrown again. *)
Definition transaction_execute {A} (callback : Async A) : Async A :=
  fun c =>
    match control_statement c with
    | (Err e, c1) => (Err e, c1)
    | (Ok _, c1) =>
        match (let* a <- callback in await control_statement ;; ret a) c1
        with
        | (Ok a, c2) => (Ok a, c2)
        | (Err e, c2) => (Err e, mkConn (db c) (faults c2))
        end
    end.

(** ** Guards *)

Definition canSendFriendshipRequest {A} (ctx : Context) (rawInput : Input)
    (next : Context -> Async A) : Async A :=
  let friendUserId := friendUserId rawInput in
  await executeTakeFirstOrThrow
          (selectFrom users (fun id => id =? friendUserId) (fun id => id)
             1)
          (TRPCError BAD_REQUEST) ;;
  next ctx.

Definition canAnswerFriendshipRequest {A} (ctx : Context)
    (rawInput : Input) (next : Context -> Async A) : Async A :=
  let friendUserId := friendUserId rawInput in
  await executeTakeFirstOrThrow
          (selectFrom friendships
             (where3 friendUserId (session_userId ctx) requested)
             Friendships.id 1)
          (TRPCError BAD_REQUEST) ;;
  next ctx.

(** ** The router *)

Module friendshipRequestRouter.

Definition send_mutation (input : Input) (ctx : Context) : Async unit :=
  let* existingDeclinedRequest <-
    executeTakeFirst
      (selectFrom friendships
         (where3 (session_userId ctx) (friendUserId input) declined)
         Friendships.status 1) in
  match existingDeclinedRequest with
  | Some _ =>
      await updateTable_friendships
              (where3 (session_userId ctx) (friendUserId input) declined)
              requested ;;
      ret tt
  | None =>
      insertInto_friendships (session_userId ctx) (friendUserId input)
        requested
  end.

Definition send (ctx : Context) (input : Input) : Async unit :=
  canSendFriendshipRequest ctx input (send_mutation input).

(** The callback of the transaction in [accept]. *)
Definition accept_callback (input : Input) (ctx : Context)
  : Async unit :=
  await updateTable_friendships
          (where3 (session_userId ctx) (friendUserId input) requested)
          accepted ;;
  let query :=
    selectFrom friendships
      (where2 (friendUserId input) (session_userId ctx))
      Friendships.id 1 in
  let* reverseFriendshipResult <- executeQuery query in
  let reverseFriendship := nth_error reverseFriendshipResult 0 in
  match reverseFriendship with
  | None =>
      insertInto_friendships (friendUserId input) (session_userId ctx)
        accepted
  | Some _ =>
      await updateTable_friendships
              (where3 (friendUserId input) (session_userId ctx)
                 requested)
              accepted ;;
      ret tt
  end.

Definition accept_mutation (input : Input) (ctx : Context)
  : Async unit :=
  transaction_execute (accept_callback input ctx).

Definition accept (ctx : Context) (input : Input) : Async unit :=
  canAnswerFriendshipRequest ctx input (accept_mutation input).

Definition decline_mutation (input : Input) (ctx : Context)
  : Async nat :=
  updateTable_friendships
    (where3 (friendUserId input) (session_userId ctx) requested)
    declined.

Definition decline (ctx : Context) (input : Input) : Async nat :=
  canAnswerFriendshipRequest ctx input (decline_mutation input).

End friendshipRequestRouter.
Import friendshipRequestRouter.

(** ** Vocabulary of the properties *)

(** The rows [accept] leaves behind when it succeeds: both updates of the
    callback, in order. *)
Definition accept_rows (ctx : Context) (input : Input)
    (rows : list Friendships.row) : list Friendships.row :=
  update_rows (where3 (friendUserId input) (session_userId ctx) requested)
    accepted
    (update_rows
       (where3 (session_userId ctx) (friendUserId input) requested)
       accepted rows).

(** No row is a pending request from [u] to [f]. *)
Definition no_pending_request (u f : Z) (rows : list Friendships.row)
  : Prop :=
  forall r, In r rows ->
    ~ (Friendships.userId r = u /\ Friendships.friendUserId r = f /\
       Friendships.status r = requested).

(** The ordered pair [(u, f)] has a row. *)
Definition has_edge (u f : Z) (rows : list Friendships.row) : Prop :=
  exists r, In r rows /\
    Friendships.userId r = u /\ Friendships.friendUserId r = f.

Definition key (r : Friendships.row) : Z * Z :=
  (Friendships.userId r, Friendships.friendUserId r).

(** At most one row per ordered pair [(userId, friendUserId)]. *)
Definition unique_pairs (rows : list Friendships.row) : Prop :=
  NoDup (map key rows).

(** A schedule on which the storage engine never fails. *)
Definition reliable (fs : list bool) : Prop := forallb negb fs = true.

(** * Lemmas *)

Lemma FriendshipStatus_eqb_spec a b :
  reflect (a = b) (FriendshipStatus_eqb a b).
Proof. destruct a, b; constructor; congruence. Qed.

(** ** Facts about the query builder *)

Section Queries.
Context {R S : Type}.
Variables (where_ : R -> bool) (select : R -> S).

Lemma filter_nil_existsb (l : list R) :
  filter where_ l = [] <-> existsb where_ l = false.
Proof.
  induction l as [|x l IH]; simpl; [tauto|].
  destruct (where_ x); simpl; [split; discriminate | exact IH].
Qed.

Lemma first_row_found (l : list R) :
  existsb where_ l = true ->
  exists x, firstn 1 (map select (filter where_ l)) = [x].
Proof.
  intros H. destruct (filter where_ l) as [|x t] eqn:E.
  - apply filter_nil_existsb in E. congruence.
  - exists (select x). reflexivity.
Qed.

Lemma first_row_missing (l : list R) :
  existsb where_ l = false ->
  firstn 1 (map select (filter where_ l)) = [].
Proof.
  intros H. apply filter_nil_existsb in H. rewrite H. reflexivity.
Qed.
End Queries.

Lemma execute_eq {A} (q : Database -> Result A * Database) d fs :
  execute q (mkConn d fs) =
  if hd false fs then (Err StorageFailure, mkConn d (tl fs))
  else (fst (q d), mkConn (snd (q d)) (tl fs)).
Proof.
  unfold execute; simpl. destruct (hd false fs); [reflexivity|].
  destruct (q d); reflexivity.
Qed.

(** ** Inversion of the monad and of the statements *)

Lemma bind_Ok {A B} (m : Async A) (k : A -> Async B) c b c' :
  bind m k c = (Ok b, c') ->
  exists a c1, m c = (Ok a, c1) /\ k a c1 = (Ok b, c').
Proof.
  unfold bind. destruct (m c) as [[a|e] c1]; [|discriminate].
  intros H. exists a, c1. split; [reflexivity | exact H].
Qed.

Lemma bind_Err {A B} (m : Async A) (k : A -> Async B) c e c' :
  bind m k c = (Err e, c') ->
  m c = (Err e, c') \/
  exists a c1, m c = (Ok a, c1) /\ k a c1 = (Err e, c').
Proof.
  unfold bind. destruct (m c) as [[a|e0] c1]; intros H.
  - right. exists a, c1. split; [reflexivity | exact H].
  - left. inversion H; reflexivity.
Qed.

Lemma execute_Ok {A} (q : Database -> Result A * Database) c a c' :
  execute q c = (Ok a, c') ->
  q (db c) = (Ok a, db c') /\ hd false (faults c) = false.
Proof.
  unfold execute. destruct (hd false (faults c)); [discriminate|].
  destruct (q (db c)) as [r d1]. intros H. inversion H; subst.
  split; reflexivity.
Qed.

Lemma execute_Err {A} (q : Database -> Result A * Database) c e c' :
  execute q c = (Err e, c') ->
  db c' = db c \/ q (db c) = (Err e, db c').
Proof.
  unfold execute. destruct (hd false (faults c)).
  - intros H. inversion H; subst. left. reflexivity.
  - destruct (q (db c)) as [r d1]. intros H. inversion H; subst.
    right. reflexivity.
Qed.

(** A statement that only reads leaves the tables as they were, whatever
    its outcome. *)
Lemma execute_read_only {A} (f : Database -> Result A) c r c' :
  execute (fun d => (f d, d)) c = (r, c') -> db c' = db c.
Proof.
  unfold execute. destruct (hd false (faults c)); intros H;
    inversion H; reflexivity.
Qed.

Lemma executeTakeFirst_Ok {S} (q : Database -> list S) c r c' :
  executeTakeFirst q c = (Ok r, c') ->
  r = hd_error (q (db c)) /\ db c' = db c.
Proof.
  unfold executeTakeFirst. intros H.
  pose proof (execute_read_only _ _ _ _ H) as Hdb.
  apply execute_Ok in H. destruct H as [H _].
  split; [congruence | exact Hdb].
Qed.

Lemma executeQuery_Ok {S} (q : Database -> list S) c r c' :
  executeQuery q c = (Ok r, c') -> r = q (db c) /\ db c' = db c.
Proof.
  unfold executeQuery. intros H.
  pose proof (execute_read_only _ _ _ _ H) as Hdb.
  apply execute_Ok in H. destruct H as [H _].
  split; [congruence | exact Hdb].
Qed.

Lemma executeTakeFirstOrThrow_db {S} (q : Database -> list S) e c r c' :
  executeTakeFirstOrThrow q e c = (r, c') -> db c' = db c.
Proof.
  unfold executeTakeFirstOrThrow, executeTakeFirst, bind, ret, throw.
  destruct (execute _ c) as [[o|e0] c1] eqn:E;
    apply execute_read_only in E.
  - destruct o; intros H; inversion H; subst; exact E.
  - intros H; inversion H; subst; exact E.
Qed.

Lemma executeTakeFirstOrThrow_Ok {S} (q : Database -> list S) e c x c' :
  executeTakeFirstOrThrow q e c = (Ok x, c') ->
  hd_error (q (db c)) = Some x /\ db c' = db c.
Proof.
  intros H. pose proof (executeTakeFirstOrThrow_db _ _ _ _ _ H) as Hdb.
  unfold executeTakeFirstOrThrow in H.
  apply bind_Ok in H. destruct H as (o & c1 & H1 & H2).
  apply executeTakeFirst_Ok in H1. destruct H1 as [-> _].
  destruct (hd_error (q (db c))); [|discriminate].
  inversion H2; subst. split; [reflexivity | exact Hdb].
Qed.

Lemma updateTable_friendships_Ok w s c n c' :
  updateTable_friendships w s c = (Ok n, c') ->
  db c' = mkDatabase (users (db c)) (update_rows w s (friendships (db c)))
  /\ n = length (filter w (friendships (db c))).
Proof.
  unfold updateTable_friendships. intros H.
  apply execute_Ok in H. destruct H as [H _]. inversion H.
  split; reflexivity.
Qed.

Lemma updateTable_friendships_Err w s c e c' :
  updateTable_friendships w s c = (Err e, c') -> db c' = db c.
Proof.
  unfold updateTable_friendships. intros H.
  apply execute_Err in H. destruct H as [H|H]; [exact H | discriminate].
Qed.

Lemma insertInto_friendships_Ok u f s c r c' :
  insertInto_friendships u f s c = (Ok r, c') ->
  existsb (where2 u f) (friendships (db c)) = false /\
  db c' = mkDatabase (users (db c))
            (friendships (db c)
               ++ [Friendships.mk (next_id (friendships (db c))) u f s]).
Proof.
  unfold insertInto_friendships. intros H.
  apply execute_Ok in H. destruct H as [H _].
  destruct (existsb (where2 u f) (friendships (db c))); [discriminate|].
  inversion H. split; reflexivity.
Qed.

Lemma insertInto_friendships_Err u f s c e c' :
  insertInto_friendships u f s c = (Err e, c') -> db c' = db c.
Proof.
  unfold insertInto_friendships. intros H.
  apply execute_Err in H. destruct H as [H|H]; [exact H|].
  destruct (existsb (where2 u f) (friendships (db c)));
    inversion H; reflexivity.
Qed.

Lemma transaction_execute_Ok {A} (cb : Async A) c a c' :
  transaction_execute cb c = (Ok a, c') ->
  exists c1 c2, db c1 = db c /\ cb c1 = (Ok a, c2) /\ db c' = db c2.
Proof.
  unfold transaction_execute, control_statement.
  destruct (execute _ c) as [[u|e] c1] eqn:Ebegin; [|discriminate].
  apply execute_read_only in Ebegin.
  destruct (bind cb _ c1) as [[a0|e] c2] eqn:Ebody; [|discriminate].
  intros H. inversion H; subst.
  apply bind_Ok in Ebody. destruct Ebody as (a1 & c3 & Hcb & Hcommit).
  apply bind_Ok in Hcommit. destruct Hcommit as (u1 & c4 & Hc & Hret).
  apply execute_read_only in Hc. inversion Hret; subst.
  exists c1, c3. repeat split; assumption.
Qed.

(** Rollback: a transaction that ends in an error has changed nothing. *)
Lemma transaction_execute_Err {A} (cb : Async A) c e c' :
  transaction_execute cb c = (Err e, c') -> db c' = db c.
Proof.
  unfold transaction_execute, control_statement.
  destruct (execute _ c) as [[u|e0] c1] eqn:Ebegin.
  - destruct (bind cb _ c1) as [[a0|e1] c2]; [discriminate|].
    intros H. inversion H. reflexivity.
  - apply execute_read_only in Ebegin.
    intros H. inversion H; subst. exact Ebegin.
Qed.

Lemma canAnswerFriendshipRequest_Ok {A} ctx input
    (next : Context -> Async A) c a c' :
  canAnswerFriendshipRequest ctx input next c = (Ok a, c') ->
  existsb (where3 (friendUserId input) (session_userId ctx) requested)
    (friendships (db c)) = true /\
  exists c1, db c1 = db c /\ next ctx c1 = (Ok a, c').
Proof.
  unfold canAnswerFriendshipRequest. intros H.
  apply bind_Ok in H. destruct H as (x & c1 & Hq & Hnext).
  apply executeTakeFirstOrThrow_Ok in Hq. destruct Hq as [Hq Hdb].
  split; [|exists c1; split; assumption].
  unfold selectFrom in Hq.
  destruct (existsb _ (friendships (db c))) eqn:E; [reflexivity|].
  rewrite (first_row_missing _ Friendships.id _ E) in Hq. discriminate.
Qed.

Lemma canSendFriendshipRequest_Ok {A} ctx input
    (next : Context -> Async A) c a c' :
  canSendFriendshipRequest ctx input next c = (Ok a, c') ->
  In (friendUserId input) (users (db c)) /\
  exists c1, db c1 = db c /\ next ctx c1 = (Ok a, c').
Proof.
  unfold canSendFriendshipRequest. intros H.
  apply bind_Ok in H. destruct H as (x & c1 & Hq & Hnext).
  apply executeTakeFirstOrThrow_Ok in Hq. destruct Hq as [Hq Hdb].
  split; [|exists c1; split; assumption].
  unfold selectFrom in Hq.
  destruct (existsb (fun id => id =? friendUserId input) (users (db c)))
    eqn:E.
  - apply existsb_exists in E. destruct E as (u & Hin & Hu).
    apply Z.eqb_eq in Hu. subst u. exact Hin.
  - rewrite (first_row_missing _ (fun id : Z => id) _ E) in Hq.
    discriminate.
Qed.

(** An update rewrites the status only: the key columns of every row, and
    so every test on them, are as before. *)
Lemma update_rows_existsb_where2 w s u f rows :
  existsb (where2 u f) (update_rows w s rows) = existsb (where2 u f) rows.
Proof.
  unfold update_rows. induction rows as [|r rows IH]; simpl; [reflexivity|].
  rewrite IH. destruct (w r); reflexivity.
Qed.

Lemma where3_where2 u f s r : where3 u f s r = true -> where2 u f r = true.
Proof.
  unfold where3, where2. intros H.
  apply andb_true_iff in H. tauto.
Qed.

Lemma existsb_where3_where2 u f s rows :
  existsb (where3 u f s) rows = true -> existsb (where2 u f) rows = true.
Proof.
  rewrite !existsb_exists. intros [r [Hin Hr]].
  exists r. split; [assumption | eapply where3_where2; eassumption].
Qed.

(** ** What a successful call does *)

Lemma accept_callback_Ok input ctx c r c' :
  existsb (where2 (friendUserId input) (session_userId ctx))
    (friendships (db c)) = true ->
  accept_callback input ctx c = (Ok r, c') ->
  db c'
  = mkDatabase (users (db c)) (accept_rows ctx input (friendships (db c))).
Proof.
  intros Hrow H. unfold accept_callback in H.
  apply bind_Ok in H. destruct H as (n & c1 & Hfwd & H).
  apply updateTable_friendships_Ok in Hfwd. destruct Hfwd as [Hfwd _].
  apply bind_Ok in H. destruct H as (rows & c2 & Hsel & H).
  apply executeQuery_Ok in Hsel. destruct Hsel as [-> Hdb2].
  unfold selectFrom in H. rewrite Hfwd in H. cbn [friendships] in H.
  destruct (first_row_found
              (where2 (friendUserId input) (session_userId ctx))
              Friendships.id
              (update_rows
                 (where3 (session_userId ctx) (friendUserId input)
                    requested) accepted (friendships (db c))))
    as [x Hx].
  { rewrite update_rows_existsb_where2. exact Hrow. }
  rewrite Hx in H. cbn [nth_error] in H.
  apply bind_Ok in H. destruct H as (m & c3 & Hrev & Hret).
  apply updateTable_friendships_Ok in Hrev. destruct Hrev as [Hrev _].
  inversion Hret; subst c'. rewrite Hrev, Hdb2, Hfwd. reflexivity.
Qed.

Lemma accept_Ok ctx input d fs r d' :
  run (accept ctx input) d fs = (Ok r, d') ->
  existsb (where3 (friendUserId input) (session_userId ctx) requested)
    (friendships d) = true /\
  d' = mkDatabase (users d) (accept_rows ctx input (friendships d)).
Proof.
  unfold run. destruct (accept ctx input _) as [r0 c'] eqn:E.
  intros H. inversion H; subst. clear H.
  unfold accept in E. apply canAnswerFriendshipRequest_Ok in E.
  cbn [db] in E. destruct E as (Hguard & c1 & Hdb1 & E).
  split; [exact Hguard|].
  unfold accept_mutation in E. apply transaction_execute_Ok in E.
  destruct E as (c2 & c3 & Hdb2 & Hcb & Hdb3).
  apply accept_callback_Ok in Hcb.
  - rewrite Hdb3, Hcb, Hdb2, Hdb1. reflexivity.
  - rewrite Hdb2, Hdb1. eapply existsb_where3_where2. exact Hguard.
Qed.

Lemma decline_Ok ctx input d fs n d' :
  run (decline ctx input) d fs = (Ok n, d') ->
  existsb (where3 (friendUserId input) (session_userId ctx) requested)
    (friendships d) = true /\
  d' = mkDatabase (users d)
         (update_rows
            (where3 (friendUserId input) (session_userId ctx) requested)
            declined (friendships d)) /\
  n = length
        (filter
           (where3 (friendUserId input) (session_userId ctx) requested)
           (friendships d)).
Proof.
  unfold run. destruct (decline ctx input _) as [r0 c'] eqn:E.
  intros H. inversion H; subst. clear H.
  unfold decline in E. apply canAnswerFriendshipRequest_Ok in E.
  cbn [db] in E. destruct E as (Hguard & c1 & Hdb1 & E).
  split; [exact Hguard|].
  unfold decline_mutation in E. apply updateTable_friendships_Ok in E.
  rewrite Hdb1 in E. exact E.
Qed.

(** Any error return of the three operations comes with the tables as they
    were before the call. *)
Lemma guard_Err {A S} (q : Database -> list S) (next : Async A) c e c' :
  bind (executeTakeFirstOrThrow q (TRPCError BAD_REQUEST)) (fun _ => next) c
  = (Err e, c') ->
  db c' = db c \/ exists c1, db c1 = db c /\ next c1 = (Err e, c').
Proof.
  intros H. apply bind_Err in H. destruct H as [H | (x & c1 & H & Hn)];
    apply executeTakeFirstOrThrow_db in H.
  - left. exact H.
  - right. exists c1. split; assumption.
Qed.

Lemma accept_Err ctx input d fs e d' :
  run (accept ctx input) d fs = (Err e, d') -> d' = d.
Proof.
  unfold run. destruct (accept ctx input _) as [r0 c'] eqn:E.
  intros H. inversion H; subst. clear H.
  unfold accept, canAnswerFriendshipRequest in E.
  apply guard_Err in E. cbn [db] in E.
  destruct E as [E | (c1 & Hdb1 & E)]; [exact E|].
  unfold accept_mutation in E. apply transaction_execute_Err in E.
  congruence.
Qed.

Lemma decline_Err ctx input d fs e d' :
  run (decline ctx input) d fs = (Err e, d') -> d' = d.
Proof.
  unfold run. destruct (decline ctx input _) as [r0 c'] eqn:E.
  intros H. inversion H; subst. clear H.
  unfold decline, canAnswerFriendshipRequest in E.
  apply guard_Err in E. cbn [db] in E.
  destruct E as [E | (c1 & Hdb1 & E)]; [exact E|].
  unfold decline_mutation in E. apply updateTable_friendships_Err in E.
  congruence.
Qed.

(** ** Reading the [where] clauses *)

Lemma where3_spec u f s r :
  where3 u f s r = true <->
  Friendships.userId r = u /\ Friendships.friendUserId r = f /\
  Friendships.status r = s.
Proof.
  unfold where3, where_userId, where_friendUserId, where_status.
  rewrite !andb_true_iff, !Z.eqb_eq.
  destruct (FriendshipStatus_eqb_spec (Friendships.status r) s);
    intuition congruence.
Qed.

Lemma where2_spec u f r :
  where2 u f r = true <->
  Friendships.userId r = u /\ Friendships.friendUserId r = f.
Proof.
  unfold where2, where_userId, where_friendUserId.
  rewrite andb_true_iff, !Z.eqb_eq. tauto.
Qed.

Lemma existsb_false_forall {R} (w : R -> bool) (l : list R) :
  existsb w l = false <-> forall r, In r l -> w r = false.
Proof.
  induction l as [|x l IH]; simpl.
  - split; [intros _ r [] | reflexivity].
  - rewrite orb_false_iff, IH. split.
    + intros [Hx Hl] r [<-|Hr]; auto.
    + intros H. split; [apply H; left; reflexivity|].
      intros r Hr. apply H. right. exact Hr.
Qed.

Lemma no_pending_request_existsb u f rows :
  no_pending_request u f rows ->
  existsb (where3 u f requested) rows = false.
Proof.
  intros H. apply existsb_false_forall. intros r Hr.
  destruct (where3 u f requested r) eqn:E; [|reflexivity].
  apply where3_spec in E. exfalso. exact (H r Hr E).
Qed.

(** ** Guards that refuse *)

Lemma canAnswerFriendshipRequest_refuses {A} ctx input
    (next : Context -> Async A) d fs :
  existsb (where3 (friendUserId input) (session_userId ctx) requested)
    (friendships d) = false ->
  hd false fs = false ->
  canAnswerFriendshipRequest ctx input next (mkConn d fs)
  = (Err (TRPCError BAD_REQUEST), mkConn d (tl fs)).
Proof.
  intros Hnone Hfs.
  unfold canAnswerFriendshipRequest, executeTakeFirstOrThrow,
    executeTakeFirst, bind, selectFrom.
  rewrite execute_eq, Hfs. cbn [fst snd].
  rewrite (first_row_missing _ Friendships.id _ Hnone). reflexivity.
Qed.

Lemma canSendFriendshipRequest_refuses {A} ctx input
    (next : Context -> Async A) d fs :
  ~ In (friendUserId input) (users d) ->
  hd false fs = false ->
  canSendFriendshipRequest ctx input next (mkConn d fs)
  = (Err (TRPCError BAD_REQUEST), mkConn d (tl fs)).
Proof.
  intros Hnone Hfs.
  assert (E : existsb (fun id => id =? friendUserId input) (users d)
              = false).
  { apply existsb_false_forall. intros u Hu.
    apply Z.eqb_neq. intros ->. exact (Hnone Hu). }
  unfold canSendFriendshipRequest, executeTakeFirstOrThrow,
    executeTakeFirst, bind, selectFrom.
  rewrite execute_eq, Hfs. cbn [fst snd].
  rewrite (first_row_missing _ (fun id : Z => id) _ E). reflexivity.
Qed.

Lemma canAnswerFriendshipRequest_faults {A} ctx input
    (next : Context -> Async A) d fs :
  hd false fs = true ->
  canAnswerFriendshipRequest ctx input next (mkConn d fs)
  = (Err StorageFailure, mkConn d (tl fs)).
Proof.
  intros Hfs.
  unfold canAnswerFriendshipRequest, executeTakeFirstOrThrow,
    executeTakeFirst, bind.
  rewrite execute_eq, Hfs. reflexivity.
Qed.

Lemma canSendFriendshipRequest_faults {A} ctx input
    (next : Context -> Async A) d fs :
  hd false fs = true ->
  canSendFriendshipRequest ctx input next (mkConn d fs)
  = (Err StorageFailure, mkConn d (tl fs)).
Proof.
  intros Hfs.
  unfold canSendFriendshipRequest, executeTakeFirstOrThrow,
    executeTakeFirst, bind.
  rewrite execute_eq, Hfs. reflexivity.
Qed.

(** ** Guards that pass, and [send] statement by statement *)

Lemma reliable_hd fs : reliable fs -> hd false fs = false.
Proof.
  destruct fs as [|[] fs]; unfold reliable; simpl; congruence.
Qed.

Lemma reliable_tl fs : reliable fs -> reliable (tl fs).
Proof.
  destruct fs as [|[] fs]; unfold reliable; simpl; congruence.
Qed.

Lemma canSendFriendshipRequest_passes {A} ctx input
    (next : Context -> Async A) d fs :
  In (friendUserId input) (users d) ->
  hd false fs = false ->
  canSendFriendshipRequest ctx input next (mkConn d fs)
  = next ctx (mkConn d (tl fs)).
Proof.
  intros Hin Hfs.
  assert (E : existsb (fun id => id =? friendUserId input) (users d)
              = true).
  { apply existsb_exists. exists (friendUserId input).
    split; [exact Hin | apply Z.eqb_refl]. }
  unfold canSendFriendshipRequest, executeTakeFirstOrThrow,
    executeTakeFirst, bind, selectFrom.
  rewrite execute_eq, Hfs. cbn [fst snd].
  destruct (first_row_found _ (fun id : Z => id) _ E) as [x ->].
  reflexivity.
Qed.

Lemma send_mutation_revives input ctx d fs :
  existsb (where3 (session_userId ctx) (friendUserId input) declined)
    (friendships d) = true ->
  hd false fs = false -> hd false (tl fs) = false ->
  send_mutation input ctx (mkConn d fs)
  = (Ok tt,
     mkConn
       (mkDatabase (users d)
          (update_rows
             (where3 (session_userId ctx) (friendUserId input) declined)
             requested (friendships d)))
       (tl (tl fs))).
Proof.
  intros Hrow H1 H2.
  unfold send_mutation, executeTakeFirst, updateTable_friendships, bind,
    selectFrom.
  rewrite execute_eq, H1. cbn [fst snd].
  destruct (first_row_found _ Friendships.status _ Hrow) as [x ->].
  cbn [hd_error]. rewrite execute_eq, H2. reflexivity.
Qed.

Lemma send_mutation_inserts input ctx d fs :
  existsb (where3 (session_userId ctx) (friendUserId input) declined)
    (friendships d) = false ->
  hd false fs = false ->
  send_mutation input ctx (mkConn d fs)
  = insertInto_friendships (session_userId ctx) (friendUserId input)
      requested (mkConn d (tl fs)).
Proof.
  intros Hrow H1.
  unfold send_mutation, executeTakeFirst, bind, selectFrom.
  rewrite execute_eq, H1. cbn [fst snd].
  rewrite (first_row_missing _ Friendships.status _ Hrow). reflexivity.
Qed.

Lemma where2_none_where3_none u f s rows :
  existsb (where2 u f) rows = false -> existsb (where3 u f s) rows = false.
Proof.
  intros H. destruct (existsb (where3 u f s) rows) eqn:E; [|reflexivity].
  apply existsb_where3_where2 in E. congruence.
Qed.

(** The three ways a call of [send] can end. *)
Lemma send_outcome ctx input d fs r d' :
  run (send ctx input) d fs = (r, d') ->
  d' = d \/
  d' = mkDatabase (users d)
         (update_rows
            (where3 (session_userId ctx) (friendUserId input) declined)
            requested (friendships d)) \/
  (existsb (where2 (session_userId ctx) (friendUserId input))
     (friendships d) = false /\
   d' = mkDatabase (users d)
          (friendships d
             ++ [Friendships.mk (next_id (friendships d))
                   (session_userId ctx) (friendUserId input) requested])).
Proof.
  unfold run. destruct (send ctx input _) as [r0 c'] eqn:E.
  intros H. inversion H; subst. clear H.
  unfold send, canSendFriendshipRequest in E.
  assert (Hmut : forall c1 r1 c2, db c1 = d ->
            send_mutation input ctx c1 = (r1, c2) ->
            db c2 = d \/
            db c2 = mkDatabase (users d)
              (update_rows
                 (where3 (session_userId ctx) (friendUserId input)
                    declined) requested (friendships d)) \/
            (existsb (where2 (session_userId ctx) (friendUserId input))
               (friendships d) = false /\
             db c2 = mkDatabase (users d)
               (friendships d
                  ++ [Friendships.mk (next_id (friendships d))
                        (session_userId ctx) (friendUserId input)
                        requested]))).
  { intros c1 r1 c2 Hdb1 Hm. unfold send_mutation in Hm.
    destruct r1 as [u|e].
    - apply bind_Ok in Hm. destruct Hm as (o & c3 & Hsel & Hm).
      apply executeTakeFirst_Ok in Hsel. destruct Hsel as [_ Hdb3].
      destruct o.
      + apply bind_Ok in Hm. destruct Hm as (n & c4 & Hup & Hret).
        apply updateTable_friendships_Ok in Hup. destruct Hup as [Hup _].
        inversion Hret; subst c2. right; left.
        rewrite Hup, Hdb3, Hdb1. reflexivity.
      + apply insertInto_friendships_Ok in Hm. right; right.
        rewrite Hdb3, Hdb1 in Hm. exact Hm.
    - left. apply bind_Err in Hm.
      destruct Hm as [Hsel | (o & c3 & Hsel & Hm)].
      + apply execute_read_only in Hsel. congruence.
      + apply executeTakeFirst_Ok in Hsel. destruct Hsel as [_ Hdb3].
        destruct o.
        * apply bind_Err in Hm.
          destruct Hm as [Hup | (n & c4 & _ & Hret)]; [|discriminate].
          apply updateTable_friendships_Err in Hup. congruence.
        * apply insertInto_friendships_Err in Hm. congruence. }
  destruct r as [u|e].
  - apply bind_Ok in E. destruct E as (x & c1 & Hq & Hnext).
    apply executeTakeFirstOrThrow_db in Hq. eapply Hmut; eassumption.
  - apply guard_Err in E. cbn [db] in E.
    destruct E as [E | (c1 & Hdb1 & E)]; [left; exact E|].
    eapply Hmut; eassumption.
Qed.

(** ** The uniqueness invariant *)

Lemma update_rows_keys w s rows :
  map key (update_rows w s rows) = map key rows.
Proof.
  unfold update_rows. rewrite map_map. apply map_ext.
  intros r. destruct (w r); reflexivity.
Qed.

Lemma update_rows_filter_where2 w s u f rows :
  length (filter (where2 u f) (update_rows w s rows))
  = length (filter (where2 u f) rows).
Proof.
  unfold update_rows. induction rows as [|r rows IH]; [reflexivity|].
  cbn [map filter].
  replace (where2 u f (if w r then Friendships.set_status s r else r))
    with (where2 u f r) by (destruct (w r); reflexivity).
  destruct (where2 u f r); cbn [length]; rewrite IH; reflexivity.
Qed.

Lemma existsb_where2_key u f rows :
  existsb (where2 u f) rows = true <-> In (u, f) (map key rows).
Proof.
  rewrite existsb_exists, in_map_iff. split.
  - intros (r & Hin & Hr). apply where2_spec in Hr. exists r.
    split; [|exact Hin]. unfold key. destruct Hr as [-> ->]. reflexivity.
  - intros (r & Hk & Hin). exists r. split; [exact Hin|].
    apply where2_spec. unfold key in Hk. inversion Hk. split; reflexivity.
Qed.

Lemma unique_pairs_one_row u f s rows :
  unique_pairs rows ->
  existsb (where3 u f s) rows = true ->
  length (filter (where3 u f s) rows) = 1%nat.
Proof.
  unfold unique_pairs. induction rows as [|r rows IH]; [discriminate|].
  cbn [map existsb filter]. intros Hnd Hex.
  inversion Hnd as [|k ks Hnotin Hnd']; subst.
  destruct (where3 u f s r) eqn:Er.
  - cbn [length]. f_equal.
    destruct (filter (where3 u f s) rows) as [|x t] eqn:Ef; [reflexivity|].
    exfalso. apply Hnotin.
    assert (Hx : In x (filter (where3 u f s) rows))
      by (rewrite Ef; left; reflexivity).
    apply filter_In in Hx. destruct Hx as [Hin Hx].
    apply where3_spec in Hx. apply where3_spec in Er.
    apply in_map_iff. exists x. split; [|exact Hin].
    unfold key. destruct Hx as (-> & -> & _), Er as (-> & -> & _).
    reflexivity.
  - apply IH; assumption.
Qed.

Lemma unique_pairs_same_row rows r1 r2 :
  unique_pairs rows -> In r1 rows -> In r2 rows -> key r1 = key r2 ->
  r1 = r2.
Proof.
  unfold unique_pairs. induction rows as [|r rows IH]; [intros _ []|].
  cbn [map]. intros Hnd H1 H2 Hk.
  inversion Hnd as [|k ks Hnotin Hnd']; subst.
  destruct H1 as [<-|H1], H2 as [<-|H2].
  - reflexivity.
  - exfalso. apply Hnotin. rewrite Hk. apply in_map. exact H2.
  - exfalso. apply Hnotin. rewrite <- Hk. apply in_map. exact H1.
  - apply IH; assumption.
Qed.

Lemma has_edge_existsb u f rows :
  has_edge u f rows <-> existsb (where2 u f) rows = true.
Proof.
  unfold has_edge. rewrite existsb_exists.
  split; intros (r & Hin & Hr); exists r; split; try assumption;
    apply where2_spec; assumption.
Qed.

Lemma no_edge_existsb u f rows :
  ~ has_edge u f rows -> existsb (where2 u f) rows = false.
Proof.
  intros H. destruct (existsb (where2 u f) rows) eqn:E; [|reflexivity].
  exfalso. apply H, has_edge_existsb, E.
Qed.

Lemma update_rows_no_match w s rows :
  existsb w rows = false -> update_rows w s rows = rows.
Proof.
  unfold update_rows. induction rows as [|r rows IH]; [reflexivity|].
  cbn [existsb map]. intros H. apply orb_false_iff in H.
  destruct H as [-> H]. rewrite IH by exact H. reflexivity.
Qed.

Lemma update_rows_nth_error w s rows k r :
  nth_error rows k = Some r ->
  nth_error (update_rows w s rows) k
  = Some (if w r then Friendships.set_status s r else r).
Proof.
  intros H. unfold update_rows. rewrite nth_error_map, H. reflexivity.
Qed.

(** * The properties *)

(** ** Accept *)

(** C1 (the code departs from it): from the single edge [(1, 2, requested)],
    [accept] by user 2 on requester 1 succeeds and sets that edge to
    [accepted], but leaves no row for the pair [(2, 1)]: the first update
    of the callback looks for the actor's own edge, the look-up that
    decides between insert and update then finds the requester's edge that
    the guard has just seen, and the insert is never reached. *)
Theorem accept_lone_request_leaves_no_reverse_row :
  run (accept (mkContext 2) (mkInput 1))
    (mkDatabase [1; 2] [Friendships.mk 1 1 2 requested]) []
  = (Ok tt, mkDatabase [1; 2] [Friendships.mk 1 1 2 accepted])
  /\ ~ has_edge 2 1 [Friendships.mk 1 1 2 accepted].
Proof.
  split; [reflexivity|].
  intros (r & [<-|[]] & Hu & _). discriminate.
Qed.

(** The same for any two distinct users and any fault schedule. *)
Lemma accept_lone_request fs us i A B r d' :
  A <> B ->
  run (accept (mkContext B) (mkInput A))
    (mkDatabase us [Friendships.mk i A B requested]) fs = (Ok r, d') ->
  d' = mkDatabase us [Friendships.mk i A B accepted].
Proof.
  intros Hne H. apply accept_Ok in H. destruct H as [_ ->].
  cbn. unfold where3, where_userId, where_friendUserId, where_status.
  cbn.
  destruct (A =? B) eqn:E; [apply Z.eqb_eq in E; contradiction|].
  cbn. rewrite !Z.eqb_refl. reflexivity.
Qed.

(** C4: when the store holds exactly the two edges [(A, B, requested)] and
    [(B, A, requested)], a successful [accept] by [B] on requester [A]
    leaves exactly those two rows, both [accepted]. *)
Theorem accept_mutual_requests_both_accepted fs us rows i j A B r d' :
  Permutation rows
    [Friendships.mk i A B requested; Friendships.mk j B A requested] ->
  run (accept (mkContext B) (mkInput A)) (mkDatabase us rows) fs
  = (Ok r, d') ->
  users d' = us /\
  Permutation (friendships d')
    [Friendships.mk i A B accepted; Friendships.mk j B A accepted].
Proof.
  intros Hperm H. apply accept_Ok in H. destruct H as [_ ->].
  split; [reflexivity|]. cbn [friendships session_userId friendUserId].
  unfold accept_rows, update_rows.
  eapply Permutation_trans.
  { apply Permutation_map, Permutation_map. exact Hperm. }
  cbn [map]. unfold where3, where_userId, where_friendUserId, where_status.
  destruct (A =? B) eqn:E1, (B =? A) eqn:E2;
    repeat (cbn; rewrite ?E1, ?E2, ?Z.eqb_refl, ?andb_false_r);
    apply Permutation_refl.
Qed.

Lemma accept_mutual_requests_both_accepted_witness :
  Permutation
    (friendships
       (snd (run (accept (mkContext 2) (mkInput 1))
               (mkDatabase [1; 2]
                  [Friendships.mk 7 2 1 requested;
                   Friendships.mk 4 1 2 requested]) [])))
    [Friendships.mk 4 1 2 accepted; Friendships.mk 7 2 1 accepted].
Proof.
  apply (accept_mutual_requests_both_accepted [] [1; 2]
           [Friendships.mk 7 2 1 requested; Friendships.mk 4 1 2 requested]
           4 7 1 2 tt).
  - apply perm_swap.
  - reflexivity.
Defined.

(** C5 (the code departs from it): a reverse edge that is [declined] is
    not forced to [accepted].  From the store
    [(1, 2, requested); (2, 1, declined)], [accept] by user 2 on requester
    1 succeeds and accepts the edge [(1, 2)], but the reverse edge
    [(2, 1)] is still [declined]: the update that reaches it is filtered
    on [requested], and the friendship of the end-result table in the
    comment of [accept], both rows [accepted], is not established. *)
Theorem accept_declined_reverse_edge_stays_declined :
  run (accept (mkContext 2) (mkInput 1))
    (mkDatabase [1; 2]
       [Friendships.mk 1 1 2 requested; Friendships.mk 2 2 1 declined])
    []
  = (Ok tt,
     mkDatabase [1; 2]
       [Friendships.mk 1 1 2 accepted; Friendships.mk 2 2 1 declined])
  /\ ~ In (Friendships.mk 2 2 1 accepted)
         [Friendships.mk 1 1 2 accepted; Friendships.mk 2 2 1 declined].
Proof.
  split; [reflexivity|].
  intros [H|[H|[]]]; discriminate.
Qed.

(** Hence [accept] does not force every reverse edge to [accepted]. *)
Lemma accept_leaves_declined_reverse_edge :
  ~ (forall fs d ctx input r d' row,
       run (accept ctx input) d fs = (Ok r, d') ->
       In row (friendships d) ->
       Friendships.userId row = session_userId ctx ->
       Friendships.friendUserId row = friendUserId input ->
       In (Friendships.set_status accepted row) (friendships d')).
Proof.
  intros H.
  specialize (H [] (mkDatabase [1; 2]
                      [Friendships.mk 1 1 2 requested;
                       Friendships.mk 2 2 1 declined])
                (mkContext 2) (mkInput 1) tt
                (mkDatabase [1; 2]
                   [Friendships.mk 1 1 2 accepted;
                    Friendships.mk 2 2 1 declined])
                (Friendships.mk 2 2 1 declined)
                eq_refl (or_intror (or_introl eq_refl)) eq_refl eq_refl).
  cbn in H. destruct H as [H|[H|[]]]; discriminate.
Qed.

(** Such a store is reached through the router alone: user 2 asks user 1,
    user 1 declines, user 1 asks user 2, user 2 accepts. *)
Example declined_reverse_edge_is_reachable :
  let d0 := mkDatabase [1; 2] [] in
  let d1 := snd (run (send (mkContext 2) (mkInput 1)) d0 []) in
  let d2 := snd (run (decline (mkContext 1) (mkInput 2)) d1 []) in
  let d3 := snd (run (send (mkContext 1) (mkInput 2)) d2 []) in
  run (accept (mkContext 2) (mkInput 1)) d3 []
  = (Ok tt,
     mkDatabase [1; 2]
       [Friendships.mk 1 2 1 declined; Friendships.mk 2 1 2 accepted]).
Proof. reflexivity. Qed.

(** C6: [accept] is all or nothing.  Whatever statement the storage engine
    fails on, and in particular when the second update fails after the
    first has run, an error return leaves the tables exactly as they
    were; so, on a store with one row per pair, the pending edge
    [(A, B)] is not seen [accepted] after the error. *)
Theorem accept_error_changes_nothing fs d A B e d' :
  run (accept (mkContext B) (mkInput A)) d fs = (Err e, d') ->
  d' = d /\
  (forall j i,
     unique_pairs (friendships d) ->
     In (Friendships.mk j A B requested) (friendships d) ->
     ~ In (Friendships.mk i A B accepted) (friendships d')).
Proof.
  intros H. apply accept_Err in H. subst d'.
  split; [reflexivity|]. intros j i Huniq Hpending Hin.
  assert (Heq : Friendships.mk j A B requested
                = Friendships.mk i A B accepted).
  { apply (unique_pairs_same_row (friendships d)); try assumption.
    reflexivity. }
  discriminate.
Qed.

Lemma accept_error_changes_nothing_witness :
  run (accept (mkContext 2) (mkInput 1))
    (mkDatabase [1; 2]
       [Friendships.mk 1 1 2 requested; Friendships.mk 2 2 1 requested])
    [false; false; false; false; true]
  = (Err StorageFailure,
     mkDatabase [1; 2]
       [Friendships.mk 1 1 2 requested; Friendships.mk 2 2 1 requested])
  /\ mkDatabase [1; 2]
       [Friendships.mk 1 1 2 requested; Friendships.mk 2 2 1 requested]
     = mkDatabase [1; 2]
         [Friendships.mk 1 1 2 requested; Friendships.mk 2 2 1 requested].
Proof.
  split; [reflexivity|].
  apply (accept_error_changes_nothing
           [false; false; false; false; true]
           (mkDatabase [1; 2]
              [Friendships.mk 1 1 2 requested;
               Friendships.mk 2 2 1 requested])
           1 2 StorageFailure).
  reflexivity.
Defined.

(** Without the transaction the same fault would leave half of the work
    behind: the callback alone, failing on its third statement, has
    already set [(2, 1)] to [accepted] while [(1, 2)] is still
    [requested]. *)
Example accept_callback_alone_is_not_atomic :
  run (accept_callback (mkInput 1) (mkContext 2))
    (mkDatabase [1; 2]
       [Friendships.mk 1 1 2 requested; Friendships.mk 2 2 1 requested])
    [false; false; true]
  = (Err StorageFailure,
     mkDatabase [1; 2]
       [Friendships.mk 1 1 2 requested; Friendships.mk 2 2 1 accepted]).
Proof. reflexivity. Qed.

(** ** Guards *)

(** C7: when no edge [(requester, actor, requested)] exists, [accept] and
    [decline] leave the store as it was, and fail with [NoPendingRequest]
    (a storage fault on the guard's own query is reported as such
    instead). *)
Theorem answer_without_pending_request_refused fs d ctx input :
  no_pending_request (friendUserId input) (session_userId ctx)
    (friendships d) ->
  (snd (run (accept ctx input) d fs) = d /\
   snd (run (decline ctx input) d fs) = d) /\
  (hd false fs = false ->
   run (accept ctx input) d fs = (Err NoPendingRequest, d) /\
   run (decline ctx input) d fs = (Err NoPendingRequest, d)).
Proof.
  intros Hnone. apply no_pending_request_existsb in Hnone.
  unfold run, accept, decline. destruct (hd false fs) eqn:Hfs.
  - rewrite !canAnswerFriendshipRequest_faults by assumption.
    repeat split; discriminate.
  - rewrite !canAnswerFriendshipRequest_refuses by assumption.
    repeat split; reflexivity.
Qed.

Lemma answer_without_pending_request_refused_witness :
  run (accept (mkContext 2) (mkInput 1))
    (mkDatabase [1; 2] [Friendships.mk 1 1 2 accepted]) []
  = (Err NoPendingRequest,
     mkDatabase [1; 2] [Friendships.mk 1 1 2 accepted])
  /\ run (decline (mkContext 2) (mkInput 1))
       (mkDatabase [1; 2] [Friendships.mk 1 1 2 accepted]) []
     = (Err NoPendingRequest,
        mkDatabase [1; 2] [Friendships.mk 1 1 2 accepted]).
Proof.
  refine (proj2 (answer_without_pending_request_refused []
           (mkDatabase [1; 2] [Friendships.mk 1 1 2 accepted])
           (mkContext 2) (mkInput 1) _) eq_refl).
  intros r [<-|[]] (_ & _ & Hs). discriminate.
Defined.

(** C8: [send] to a target that is not in [users] creates and changes no
    row, and fails with [InvalidTarget] (a storage fault on the guard's
    own query is reported as such instead). *)
Theorem send_to_missing_user_refused fs d ctx input :
  ~ In (friendUserId input) (users d) ->
  snd (run (send ctx input) d fs) = d /\
  (hd false fs = false ->
   run (send ctx input) d fs = (Err InvalidTarget, d)).
Proof.
  intros Hnone. unfold run, send. destruct (hd false fs) eqn:Hfs.
  - rewrite canSendFriendshipRequest_faults by assumption.
    split; [reflexivity | discriminate].
  - rewrite canSendFriendshipRequest_refuses by assumption.
    split; reflexivity.
Qed.

Lemma send_to_missing_user_refused_witness :
  run (send (mkContext 1) (mkInput 3))
    (mkDatabase [1; 2] [Friendships.mk 1 1 2 declined]) []
  = (Err InvalidTarget, mkDatabase [1; 2] [Friendships.mk 1 1 2 declined]).
Proof.
  refine (proj2 (send_to_missing_user_refused []
           (mkDatabase [1; 2] [Friendships.mk 1 1 2 declined])
           (mkContext 1) (mkInput 3) _) eq_refl).
  intros [H|[H|[]]]; discriminate.
Defined.

(** ** Decline *)

(** C9: a successful [decline] by [B] on requester [A] rewrites the pending
    edge [(A, B, requested)] to [declined], where it stands and under the
    same key, and leaves every other row, the reverse edge [(B, A)]
    included, and the [users] table as they were.  On a store with one
    row per pair exactly one row is updated. *)
Theorem decline_changes_only_the_request fs d A B n d' :
  run (decline (mkContext B) (mkInput A)) d fs = (Ok n, d') ->
  users d' = users d /\
  length (friendships d') = length (friendships d) /\
  (forall k r, nth_error (friendships d) k = Some r ->
     (Friendships.userId r = A /\ Friendships.friendUserId r = B /\
      Friendships.status r = requested ->
      nth_error (friendships d') k
      = Some (Friendships.mk (Friendships.id r) A B declined)) /\
     (~ (Friendships.userId r = A /\ Friendships.friendUserId r = B /\
         Friendships.status r = requested) ->
      nth_error (friendships d') k = Some r)) /\
  (exists i, In (Friendships.mk i A B requested) (friendships d)) /\
  (unique_pairs (friendships d) -> n = 1%nat).
Proof.
  intros H. apply decline_Ok in H.
  cbn [session_userId friendUserId] in H. destruct H as (Hguard & -> & ->).
  cbn [users friendships].
  split; [reflexivity|]. split; [apply length_map|]. split; [|split].
  - intros k r Hk.
    rewrite (update_rows_nth_error _ _ _ _ _ Hk).
    split; intros Hr.
    + rewrite (proj2 (where3_spec A B requested r) Hr).
      destruct Hr as (<- & <- & _). reflexivity.
    + destruct (where3 A B requested r) eqn:E; [|reflexivity].
      apply where3_spec in E. contradiction.
  - apply existsb_exists in Hguard. destruct Hguard as (r & Hin & Hr).
    apply where3_spec in Hr. destruct r as [i u f st]. cbn in Hr.
    destruct Hr as (-> & -> & ->). exists i. exact Hin.
  - intros Huniq. apply unique_pairs_one_row; assumption.
Qed.

Lemma decline_changes_only_the_request_witness :
  nth_error
    [Friendships.mk 1 1 2 declined; Friendships.mk 2 2 1 requested] 1
  = Some (Friendships.mk 2 2 1 requested).
Proof.
  refine (proj2 (proj1 (proj2 (proj2
    (decline_changes_only_the_request [] (mkDatabase [1; 2]
       [Friendships.mk 1 1 2 requested; Friendships.mk 2 2 1 requested])
       1 2 1%nat
       (mkDatabase [1; 2]
          [Friendships.mk 1 1 2 declined; Friendships.mk 2 2 1 requested])
       eq_refl))) 1%nat (Friendships.mk 2 2 1 requested) eq_refl) _).
  intros (Hu & _). discriminate.
Defined.

(** ** Send *)

Lemma insertInto_friendships_fresh u f s d fs :
  existsb (where2 u f) (friendships d) = false ->
  hd false fs = false ->
  insertInto_friendships u f s (mkConn d fs)
  = (Ok tt,
     mkConn
       (mkDatabase (users d)
          (friendships d
             ++ [Friendships.mk (next_id (friendships d)) u f s]))
       (tl fs)).
Proof.
  intros Hnone Hfs. unfold insertInto_friendships.
  rewrite execute_eq, Hfs, Hnone. reflexivity.
Qed.

(** A first request: the target exists and the pair has no row yet. *)
Lemma send_inserts fs d A B :
  reliable fs -> In B (users d) -> ~ has_edge A B (friendships d) ->
  run (send (mkContext A) (mkInput B)) d fs
  = (Ok tt,
     mkDatabase (users d)
       (friendships d
          ++ [Friendships.mk (next_id (friendships d)) A B requested])).
Proof.
  intros Hfs Hin Hnone. apply no_edge_existsb in Hnone.
  pose proof (reliable_hd _ Hfs) as H0.
  pose proof (reliable_hd _ (reliable_tl _ Hfs)) as H1.
  pose proof (reliable_hd _ (reliable_tl _ (reliable_tl _ Hfs))) as H2.
  unfold run, send.
  rewrite canSendFriendshipRequest_passes by assumption.
  rewrite send_mutation_inserts
    by (try apply where2_none_where3_none; assumption).
  cbn [session_userId friendUserId].
  rewrite insertInto_friendships_fresh by assumption. reflexivity.
Qed.

(** C10: [send] does not forbid a request to oneself: for an existing user
    [A] with no edge [(A, A)], [send] by [A] to [A] succeeds and inserts
    the self-edge [(A, A, requested)]. *)
Theorem send_to_self_inserts_self_edge fs d A :
  reliable fs -> In A (users d) -> ~ has_edge A A (friendships d) ->
  run (send (mkContext A) (mkInput A)) d fs
  = (Ok tt,
     mkDatabase (users d)
       (friendships d
          ++ [Friendships.mk (next_id (friendships d)) A A requested])).
Proof. intros Hfs Hin Hnone. apply send_inserts; assumption. Qed.

Lemma send_to_self_inserts_self_edge_witness :
  run (send (mkContext 1) (mkInput 1))
    (mkDatabase [1; 2] [Friendships.mk 5 1 2 requested]) []
  = (Ok tt,
     mkDatabase [1; 2]
       [Friendships.mk 5 1 2 requested; Friendships.mk 6 1 1 requested]).
Proof.
  apply (send_to_self_inserts_self_edge []
           (mkDatabase [1; 2] [Friendships.mk 5 1 2 requested]) 1).
  - reflexivity.
  - left; reflexivity.
  - intros (r & [<-|[]] & _ & Hf). discriminate.
Defined.

(** C3: when the store holds [(A, B, declined)] and [B] is a user, [send]
    by [A] to [B] succeeds and rewrites that row, where it stands and
    under the same key, to [(A, B, requested)]; no row is added, and the
    rows that are not a declined [(A, B)] edge are as before. *)
Theorem send_after_decline_revives_row fs d A B i :
  reliable fs -> In B (users d) ->
  In (Friendships.mk i A B declined) (friendships d) ->
  exists d',
    run (send (mkContext A) (mkInput B)) d fs = (Ok tt, d') /\
    users d' = users d /\
    In (Friendships.mk i A B requested) (friendships d') /\
    length (friendships d') = length (friendships d) /\
    map key (friendships d') = map key (friendships d) /\
    forall k r, nth_error (friendships d) k = Some r ->
      nth_error (friendships d') k
      = Some (if where3 A B declined r
              then Friendships.mk (Friendships.id r) A B requested
              else r).
Proof.
  intros Hfs Hin Hrow.
  pose proof (reliable_hd _ Hfs) as H0.
  pose proof (reliable_hd _ (reliable_tl _ Hfs)) as H1.
  pose proof (reliable_hd _ (reliable_tl _ (reliable_tl _ Hfs))) as H2.
  assert (Hex : existsb (where3 A B declined) (friendships d) = true).
  { apply existsb_exists. exists (Friendships.mk i A B declined).
    split; [exact Hrow|]. apply where3_spec. repeat split. }
  exists (mkDatabase (users d)
            (update_rows (where3 A B declined) requested (friendships d))).
  split.
  { unfold run, send.
    rewrite canSendFriendshipRequest_passes by assumption.
    rewrite send_mutation_revives by assumption. reflexivity. }
  cbn [users friendships]. split; [reflexivity|]. split; [|split; [|split]].
  - apply (in_map (fun r => if where3 A B declined r
                            then Friendships.set_status requested r
                            else r)) in Hrow.
    rewrite (proj2 (where3_spec A B declined _)) in Hrow
      by (repeat split).
    exact Hrow.
  - apply length_map.
  - apply update_rows_keys.
  - intros k r Hk. rewrite (update_rows_nth_error _ _ _ _ _ Hk).
    destruct (where3 A B declined r) eqn:E; [|reflexivity].
    apply where3_spec in E. destruct E as (<- & <- & _). reflexivity.
Qed.

Lemma send_after_decline_revives_row_witness :
  exists d',
    run (send (mkContext 1) (mkInput 2))
      (mkDatabase [1; 2]
         [Friendships.mk 3 2 1 accepted; Friendships.mk 4 1 2 declined]) []
    = (Ok tt, d') /\
    In (Friendships.mk 4 1 2 requested) (friendships d').
Proof.
  destruct (send_after_decline_revives_row []
              (mkDatabase [1; 2]
                 [Friendships.mk 3 2 1 accepted;
                  Friendships.mk 4 1 2 declined]) 1 2 4)
    as (d' & Hrun & _ & Hin & _).
  - reflexivity.
  - right; left; reflexivity.
  - right; left; reflexivity.
  - exists d'. split; assumption.
Defined.

Lemma send_keeps_pair_count fs d ctx input u f :
  has_edge u f (friendships d) ->
  length (filter (where2 u f)
            (friendships (snd (run (send ctx input) d fs))))
  = length (filter (where2 u f) (friendships d)).
Proof.
  intros Hedge. apply has_edge_existsb in Hedge.
  destruct (run (send ctx input) d fs) as [r d'] eqn:E.
  apply send_outcome in E. cbn [snd].
  destruct E as [-> | [-> | [Hnone ->]]]; cbn [friendships].
  - reflexivity.
  - apply update_rows_filter_where2.
  - rewrite filter_app, length_app. cbn [filter].
    destruct (where2 u f _) eqn:Ew; [|cbn; lia].
    apply where2_spec in Ew. cbn in Ew. destruct Ew as [Eu Ef].
    rewrite Eu, Ef in Hnone. congruence.
Qed.

Lemma send_keeps_unique_pairs fs d ctx input :
  unique_pairs (friendships d) ->
  unique_pairs (friendships (snd (run (send ctx input) d fs))).
Proof.
  intros Huniq.
  destruct (run (send ctx input) d fs) as [r d'] eqn:E.
  apply send_outcome in E. cbn [snd].
  destruct E as [-> | [-> | [Hnone ->]]]; cbn [friendships];
    unfold unique_pairs in *.
  - exact Huniq.
  - rewrite update_rows_keys. exact Huniq.
  - rewrite map_app. cbn [map].
    eapply Permutation_NoDup; [apply Permutation_cons_append|].
    constructor; [|exact Huniq].
    intros Hin. apply (proj2 (existsb_where2_key _ _ _)) in Hin.
    cbn in Hin. congruence.
Qed.

(** C2: [send] never gives an ordered pair a second row.  From a store with
    no edge [(A, B)], two calls of [send] by [A] to an existing [B] (the
    first one served by the storage engine) leave exactly one row for the
    pair, [(A, B, requested)]: the second call changes nothing.  In
    general, whatever the store, the arguments and the outcome of a call,
    a pair that has a row has as many rows after [send] as before, and a
    store with at most one row per pair stays so. *)
Theorem send_never_duplicates_a_pair fs1 fs2 d A B :
  reliable fs1 -> In B (users d) -> ~ has_edge A B (friendships d) ->
  (let first := run (send (mkContext A) (mkInput B)) d fs1 in
   let second := run (send (mkContext A) (mkInput B)) (snd first) fs2 in
   fst first = Ok tt /\
   snd second = snd first /\
   filter (where2 A B) (friendships (snd second))
   = [Friendships.mk (next_id (friendships d)) A B requested]) /\
  (forall fs d0 ctx input u f,
     has_edge u f (friendships d0) ->
     length (filter (where2 u f)
               (friendships (snd (run (send ctx input) d0 fs))))
     = length (filter (where2 u f) (friendships d0))) /\
  (forall fs d0 ctx input,
     unique_pairs (friendships d0) ->
     unique_pairs (friendships (snd (run (send ctx input) d0 fs)))).
Proof.
  intros Hfs Hin Hnone.
  split; [|split; intros; [apply send_keeps_pair_count
                          |apply send_keeps_unique_pairs]; assumption].
  rewrite (send_inserts fs1 d A B Hfs Hin Hnone). cbn [fst snd].
  apply no_edge_existsb in Hnone.
  set (new := Friendships.mk (next_id (friendships d)) A B requested).
  assert (Hnew : where2 A B new = true)
    by (apply where2_spec; split; reflexivity).
  assert (Hsame : snd (run (send (mkContext A) (mkInput B))
                         (mkDatabase (users d) (friendships d ++ [new]))
                         fs2)
                  = mkDatabase (users d) (friendships d ++ [new])).
  { destruct (run _ _ fs2) as [r2 d2] eqn:E. apply send_outcome in E.
    cbn [snd]. cbn [session_userId friendUserId users friendships] in E.
    destruct E as [-> | [-> | [Hcontra _]]].
    - reflexivity.
    - rewrite update_rows_no_match; [reflexivity|].
      rewrite existsb_app, (where2_none_where3_none _ _ _ _ Hnone).
      cbn [existsb orb].
      unfold where3, where_status. cbn [Friendships.status new].
      cbn [FriendshipStatus_eqb]. rewrite andb_false_r. reflexivity.
    - rewrite existsb_app in Hcontra. cbn [existsb] in Hcontra.
      rewrite Hnew, orb_true_r in Hcontra. discriminate. }
  split; [reflexivity|]. split; [exact Hsame|].
  rewrite Hsame. cbn [friendships].
  rewrite filter_app. cbn [filter]. rewrite Hnew.
  rewrite (proj2 (filter_nil_existsb _ _) Hnone). reflexivity.
Qed.

Lemma send_never_duplicates_a_pair_witness :
  filter (where2 1 2)
    (friendships
       (snd (run (send (mkContext 1) (mkInput 2))
               (snd (run (send (mkContext 1) (mkInput 2))
                       (mkDatabase [1; 2] [Friendships.mk 1 2 1 declined])
                       []))
               [])))
  = [Friendships.mk 2 1 2 requested].
Proof.
  refine (proj2 (proj2 (proj1
    (send_never_duplicates_a_pair [] []
       (mkDatabase [1; 2] [Friendships.mk 1 2 1 declined]) 1 2
       eq_refl (or_intror (or_introl eq_refl)) _)))).
  intros (r & [<-|[]] & Hu & _). discriminate.
Defined.

(** The second of two identical requests is turned down by the unique
    constraint. *)
Example send_twice_conflict :
  run (send (mkContext 1) (mkInput 2))
    (mkDatabase [1; 2] [Friendships.mk 1 1 2 requested]) []
  = (Err UniqueConstraintError,
     mkDatabase [1; 2] [Friendships.mk 1 1 2 requested]).
Proof. reflexivity. Qed.

(** * Further properties of the router *)

(** ** More on the statements *)

Lemma update_rows_ids w s rows :
  map Friendships.id (update_rows w s rows) = map Friendships.id rows.
Proof.
  unfold update_rows. rewrite map_map. apply map_ext.
  intros r. destruct (w r); reflexivity.
Qed.

Lemma update_rows_app w s l1 l2 :
  update_rows w s (l1 ++ l2) = update_rows w s l1 ++ update_rows w s l2.
Proof. unfold update_rows. apply map_app. Qed.

(** After an update of the rows [(u, f, s)] to another status, no row
    [(u, f, s)] is left. *)
Lemma update_rows_clears u f s s' rows :
  s <> s' ->
  existsb (where3 u f s) (update_rows (where3 u f s) s' rows) = false.
Proof.
  intros Hne. apply existsb_false_forall. intros r Hr.
  unfold update_rows in Hr. apply in_map_iff in Hr.
  destruct Hr as (r0 & <- & _).
  destruct (where3 u f s r0) eqn:E; [|exact E].
  destruct (where3 u f s (Friendships.set_status s' r0)) eqn:E';
    [|reflexivity].
  apply where3_spec in E'. cbn in E'. destruct E' as (_ & _ & Hs).
  congruence.
Qed.

Lemma canAnswerFriendshipRequest_passes {A} ctx input
    (next : Context -> Async A) d fs :
  existsb (where3 (friendUserId input) (session_userId ctx) requested)
    (friendships d) = true ->
  hd false fs = false ->
  canAnswerFriendshipRequest ctx input next (mkConn d fs)
  = next ctx (mkConn d (tl fs)).
Proof.
  intros Hrow Hfs.
  unfold canAnswerFriendshipRequest, executeTakeFirstOrThrow,
    executeTakeFirst, bind, selectFrom.
  rewrite execute_eq, Hfs. cbn [fst snd].
  destruct (first_row_found _ Friendships.id _ Hrow) as [x ->].
  reflexivity.
Qed.

Lemma accept_callback_runs input ctx d fs :
  existsb (where2 (friendUserId input) (session_userId ctx))
    (friendships d) = true ->
  reliable fs ->
  accept_callback input ctx (mkConn d fs)
  = (Ok tt,
     mkConn (mkDatabase (users d) (accept_rows ctx input (friendships d)))
       (tl (tl (tl fs)))).
Proof.
  intros Hrow Hfs.
  pose proof (reliable_hd _ Hfs) as H0.
  pose proof (reliable_hd _ (reliable_tl _ Hfs)) as H1.
  pose proof (reliable_hd _ (reliable_tl _ (reliable_tl _ Hfs))) as H2.
  unfold accept_callback, updateTable_friendships, executeQuery, bind,
    selectFrom.
  rewrite execute_eq, H0. cbn [fst snd].
  rewrite execute_eq, H1. cbn [fst snd friendships].
  destruct (first_row_found
              (where2 (friendUserId input) (session_userId ctx))
              Friendships.id
              (update_rows
                 (where3 (session_userId ctx) (friendUserId input)
                    requested) accepted (friendships d)))
    as [x ->].
  { rewrite update_rows_existsb_where2. exact Hrow. }
  cbn [nth_error]. rewrite execute_eq, H2. reflexivity.
Qed.

Lemma accept_runs ctx input d fs :
  existsb (where3 (friendUserId input) (session_userId ctx) requested)
    (friendships d) = true ->
  reliable fs ->
  run (accept ctx input) d fs
  = (Ok tt, mkDatabase (users d) (accept_rows ctx input (friendships d))).
Proof.
  intros Hrow Hfs.
  pose proof (reliable_hd _ Hfs) as H0.
  pose proof (reliable_tl _ Hfs) as Hfs1.
  pose proof (reliable_hd _ Hfs1) as H1.
  pose proof (reliable_tl _ Hfs1) as Hfs2.
  pose proof (reliable_hd _
    (reliable_tl _ (reliable_tl _ (reliable_tl _ Hfs2)))) as H5.
  unfold run, accept.
  rewrite canAnswerFriendshipRequest_passes by assumption.
  unfold accept_mutation, transaction_execute, control_statement, bind.
  rewrite execute_eq, H1. cbn [fst snd].
  rewrite accept_callback_runs
    by (try eapply existsb_where3_where2; eassumption).
  rewrite execute_eq, H5. reflexivity.
Qed.

Lemma decline_runs ctx input d fs :
  existsb (where3 (friendUserId input) (session_userId ctx) requested)
    (friendships d) = true ->
  reliable fs ->
  run (decline ctx input) d fs
  = (Ok (length
           (filter
              (where3 (friendUserId input) (session_userId ctx)
                 requested)
              (friendships d))),
     mkDatabase (users d)
       (update_rows
          (where3 (friendUserId input) (session_userId ctx) requested)
          declined (friendships d))).
Proof.
  intros Hrow Hfs.
  pose proof (reliable_hd _ Hfs) as H0.
  pose proof (reliable_hd _ (reliable_tl _ Hfs)) as H1.
  unfold run, decline.
  rewrite canAnswerFriendshipRequest_passes by assumption.
  unfold decline_mutation, updateTable_friendships.
  rewrite execute_eq, H1. reflexivity.
Qed.

(** The two ways a call of [accept], and of [decline], can end. *)
Lemma accept_outcome ctx input d fs r d' :
  run (accept ctx input) d fs = (r, d') ->
  d' = d \/
  d' = mkDatabase (users d) (accept_rows ctx input (friendships d)).
Proof.
  destruct r as [u|e]; intros H.
  - right. apply accept_Ok in H. tauto.
  - left. eapply accept_Err. exact H.
Qed.

Lemma decline_outcome ctx input d fs r d' :
  run (decline ctx input) d fs = (r, d') ->
  d' = d \/
  d' = mkDatabase (users d)
         (update_rows
            (where3 (friendUserId input) (session_userId ctx) requested)
            declined (friendships d)).
Proof.
  destruct r as [n|e]; intros H.
  - right. apply decline_Ok in H. tauto.
  - left. eapply decline_Err. exact H.
Qed.

Lemma send_Err ctx input d fs e d' :
  run (send ctx input) d fs = (Err e, d') -> d' = d.
Proof.
  unfold run. destruct (send ctx input _) as [r0 c'] eqn:E.
  intros H. inversion H; subst. clear H.
  unfold send, canSendFriendshipRequest in E.
  apply guard_Err in E. cbn [db] in E.
  destruct E as [E | (c1 & Hdb1 & E)]; [exact E|].
  unfold send_mutation in E. apply bind_Err in E.
  destruct E as [Hsel | (o & c3 & Hsel & Hm)].
  - apply execute_read_only in Hsel. congruence.
  - apply executeTakeFirst_Ok in Hsel. destruct Hsel as [_ Hdb3].
    destruct o.
    + apply bind_Err in Hm.
      destruct Hm as [Hup | (n & c4 & _ & Hret)]; [|discriminate].
      apply updateTable_friendships_Err in Hup. congruence.
    + apply insertInto_friendships_Err in Hm. congruence.
Qed.

Lemma in_existsb_where3 i u f s rows :
  In (Friendships.mk i u f s) rows ->
  existsb (where3 u f s) rows = true.
Proof.
  intros Hin. apply existsb_exists. exists (Friendships.mk i u f s).
  split; [exact Hin|]. apply where3_spec. repeat split.
Qed.

Lemma accept_rows_nth_error ctx input rows k r :
  nth_error rows k = Some r ->
  nth_error (accept_rows ctx input rows) k
  = Some
      (let r1 :=
         if where3 (session_userId ctx) (friendUserId input) requested r
         then Friendships.set_status accepted r else r in
       if where3 (friendUserId input) (session_userId ctx) requested r1
       then Friendships.set_status accepted r1 else r1).
Proof.
  intros Hk. unfold accept_rows.
  apply update_rows_nth_error, update_rows_nth_error. exact Hk.
Qed.

(** ** Accept *)

(** X1: [accept] goes through whenever a request is pending and the storage
    engine serves every statement: the pending edge [(A, B, requested)]
    is [accepted] afterwards, under the same key, and [users] is as
    before. *)
Theorem accept_succeeds_on_pending_request fs d A B i :
  reliable fs ->
  In (Friendships.mk i A B requested) (friendships d) ->
  exists d',
    run (accept (mkContext B) (mkInput A)) d fs = (Ok tt, d') /\
    users d' = users d /\
    In (Friendships.mk i A B accepted) (friendships d').
Proof.
  intros Hfs Hin.
  exists (mkDatabase (users d)
            (accept_rows (mkContext B) (mkInput A) (friendships d))).
  split; [|split; [reflexivity|]].
  - apply accept_runs; [|exact Hfs].
    eapply in_existsb_where3. exact Hin.
  - cbn [friendships]. apply In_nth_error in Hin. destruct Hin as [k Hk].
    apply (accept_rows_nth_error (mkContext B) (mkInput A)) in Hk.
    apply nth_error_In with (n := k). rewrite Hk. f_equal.
    cbn [session_userId friendUserId].
    unfold where3, where_userId, where_friendUserId, where_status.
    destruct (A =? B) eqn:E1, (B =? A) eqn:E2;
      repeat (cbn; rewrite ?E1, ?E2, ?Z.eqb_refl, ?andb_false_r);
      reflexivity.
Qed.

Lemma accept_succeeds_on_pending_request_witness :
  exists d',
    run (accept (mkContext 2) (mkInput 1))
      (mkDatabase [1; 2]
         [Friendships.mk 8 3 2 requested; Friendships.mk 9 1 2 requested])
      [] = (Ok tt, d') /\
    In (Friendships.mk 9 1 2 accepted) (friendships d').
Proof.
  destruct (accept_succeeds_on_pending_request []
              (mkDatabase [1; 2]
                 [Friendships.mk 8 3 2 requested;
                  Friendships.mk 9 1 2 requested]) 1 2 9)
    as (d' & Hrun & _ & Hin).
  - reflexivity.
  - right; left; reflexivity.
  - exists d'. split; assumption.
Defined.

(** X2: However a call of [accept] ends, it adds no row, removes none and
    changes no key: the [id] column and the [(userId, friendUserId)]
    column are as before, so the insert of the callback is never carried
    out, and a store with one row per pair stays so. *)
Theorem accept_never_adds_or_rekeys_rows fs d ctx input r d' :
  run (accept ctx input) d fs = (r, d') ->
  users d' = users d /\
  map Friendships.id (friendships d') = map Friendships.id (friendships d)
  /\ map key (friendships d') = map key (friendships d)
  /\ (unique_pairs (friendships d) -> unique_pairs (friendships d')).
Proof.
  intros H. apply accept_outcome in H.
  destruct H as [-> | ->]; cbn [users friendships].
  - repeat split; auto.
  - unfold accept_rows, unique_pairs.
    rewrite !update_rows_ids, !update_rows_keys. repeat split; auto.
Qed.

Lemma accept_never_adds_or_rekeys_rows_witness :
  map key [Friendships.mk 1 1 2 accepted]
  = map key [Friendships.mk 1 1 2 requested].
Proof.
  exact (proj1 (proj2 (proj2
    (accept_never_adds_or_rekeys_rows [] (mkDatabase [1; 2]
       [Friendships.mk 1 1 2 requested]) (mkContext 2) (mkInput 1)
       (Ok tt) (mkDatabase [1; 2] [Friendships.mk 1 1 2 accepted])
       eq_refl)))).
Defined.

(** X3: However a call of [accept] by [B] on [A] ends, each row is either as
    before or was a [requested] row of the pair [(A, B)] or [(B, A)] and is
    now [accepted]: rows of other pairs, and [accepted] and [declined]
    rows, are never touched. *)
Theorem accept_touches_only_pending_rows_of_the_pair fs d A B r d' :
  run (accept (mkContext B) (mkInput A)) d fs = (r, d') ->
  forall k row, nth_error (friendships d) k = Some row ->
    nth_error (friendships d') k = Some row \/
    (Friendships.status row = requested /\
     (key row = (A, B) \/ key row = (B, A)) /\
     nth_error (friendships d') k
     = Some (Friendships.set_status accepted row)).
Proof.
  intros H k row Hk. apply accept_outcome in H.
  destruct H as [-> | ->]; [left; exact Hk|].
  cbn [friendships].
  rewrite (accept_rows_nth_error _ _ _ _ _ Hk).
  cbn [session_userId friendUserId].
  destruct (where3 B A requested row) eqn:E1; cbv zeta.
  - right. apply where3_spec in E1. destruct E1 as (Hu & Hf & Hs).
    split; [exact Hs|]. split; [right; unfold key; congruence|].
    destruct (where3 A B requested (Friendships.set_status accepted row))
      eqn:E2; [|reflexivity].
    apply where3_spec in E2. cbn in E2. destruct E2 as (_ & _ & E2).
    discriminate.
  - destruct (where3 A B requested row) eqn:E2; [|left; reflexivity].
    right. apply where3_spec in E2. destruct E2 as (Hu & Hf & Hs).
    split; [exact Hs|]. split; [left; unfold key; congruence|].
    reflexivity.
Qed.

Lemma accept_touches_only_pending_rows_of_the_pair_witness :
  nth_error
    [Friendships.mk 1 1 2 accepted; Friendships.mk 2 3 2 requested] 1
  = Some (Friendships.mk 2 3 2 requested) \/
  (requested = requested /\
   (key (Friendships.mk 2 3 2 requested) = (1, 2) \/
    key (Friendships.mk 2 3 2 requested) = (2, 1)) /\
   nth_error
     [Friendships.mk 1 1 2 accepted; Friendships.mk 2 3 2 requested] 1
   = Some (Friendships.mk 2 3 2 accepted)).
Proof.
  exact (accept_touches_only_pending_rows_of_the_pair []
           (mkDatabase [1; 2; 3]
              [Friendships.mk 1 1 2 requested;
               Friendships.mk 2 3 2 requested]) 1 2 (Ok tt)
           (mkDatabase [1; 2; 3]
              [Friendships.mk 1 1 2 accepted;
               Friendships.mk 2 3 2 requested])
           eq_refl 1%nat (Friendships.mk 2 3 2 requested) eq_refl).
Defined.

(** X4: A request can be accepted once only: after a successful [accept] by
    [B] on [A] no request from [A] to [B] is pending, and a further
    [accept] or [decline] by [B] on [A] is refused by the guard and
    changes nothing. *)
Theorem accept_answers_the_request_for_good fs d A B r d' fs' :
  run (accept (mkContext B) (mkInput A)) d fs = (Ok r, d') ->
  no_pending_request A B (friendships d') /\
  (hd false fs' = false ->
   run (accept (mkContext B) (mkInput A)) d' fs'
   = (Err (TRPCError BAD_REQUEST), d') /\
   run (decline (mkContext B) (mkInput A)) d' fs'
   = (Err (TRPCError BAD_REQUEST), d')).
Proof.
  intros H. apply accept_Ok in H. destruct H as [_ ->].
  cbn [session_userId friendUserId friendships].
  assert (Hnone : existsb (where3 A B requested)
                    (accept_rows (mkContext B) (mkInput A) (friendships d))
                  = false)
    by (apply update_rows_clears; discriminate).
  split.
  - intros row Hrow Hp. apply where3_spec in Hp.
    rewrite existsb_false_forall in Hnone.
    rewrite (Hnone row Hrow) in Hp. discriminate.
  - intros Hfs. unfold run, accept, decline.
    rewrite !canAnswerFriendshipRequest_refuses by assumption.
    split; reflexivity.
Qed.

Lemma accept_answers_the_request_for_good_witness :
  run (accept (mkContext 2) (mkInput 1))
    (mkDatabase [1; 2] [Friendships.mk 1 1 2 accepted]) []
  = (Err (TRPCError BAD_REQUEST),
     mkDatabase [1; 2] [Friendships.mk 1 1 2 accepted]).
Proof.
  exact (proj1 (proj2
    (accept_answers_the_request_for_good [] (mkDatabase [1; 2]
       [Friendships.mk 1 1 2 requested]) 1 2 tt
       (mkDatabase [1; 2] [Friendships.mk 1 1 2 accepted]) [] eq_refl)
    eq_refl)).
Defined.

(** ** Decline *)

(** X5: [decline] goes through whenever a request is pending and the storage
    engine serves every statement: it reports at least one updated row
    and the pending edge [(A, B, requested)] is [declined] afterwards,
    under the same key. *)
Theorem decline_succeeds_on_pending_request fs d A B i :
  reliable fs ->
  In (Friendships.mk i A B requested) (friendships d) ->
  exists n d',
    run (decline (mkContext B) (mkInput A)) d fs = (Ok n, d') /\
    (1 <= n)%nat /\
    users d' = users d /\
    In (Friendships.mk i A B declined) (friendships d').
Proof.
  intros Hfs Hin.
  pose proof (in_existsb_where3 _ _ _ _ _ Hin) as Hex.
  eexists. eexists. split; [|split; [|split]].
  - apply decline_runs; assumption.
  - cbn [session_userId friendUserId].
    destruct (filter (where3 A B requested) (friendships d)) eqn:E;
      [|cbn; lia].
    apply filter_nil_existsb in E. congruence.
  - reflexivity.
  - cbn [friendships session_userId friendUserId].
    apply (in_map (fun r => if where3 A B requested r
                            then Friendships.set_status declined r
                            else r)) in Hin.
    rewrite (proj2 (where3_spec A B requested _)) in Hin
      by (repeat split).
    exact Hin.
Qed.

Lemma decline_succeeds_on_pending_request_witness :
  exists n d',
    run (decline (mkContext 2) (mkInput 1))
      (mkDatabase [1; 2] [Friendships.mk 4 1 2 requested]) []
    = (Ok n, d') /\
    In (Friendships.mk 4 1 2 declined) (friendships d').
Proof.
  destruct (decline_succeeds_on_pending_request []
              (mkDatabase [1; 2] [Friendships.mk 4 1 2 requested]) 1 2 4)
    as (n & d' & Hrun & _ & _ & Hin).
  - reflexivity.
  - left; reflexivity.
  - exists n, d'. split; assumption.
Defined.

(** X6: However a call of [decline] ends, it adds no row, removes none and
    changes no key, and [users] is as before; an error return leaves the
    whole store as it was. *)
Theorem decline_never_adds_or_rekeys_rows fs d ctx input r d' :
  run (decline ctx input) d fs = (r, d') ->
  users d' = users d /\
  map Friendships.id (friendships d') = map Friendships.id (friendships d)
  /\ map key (friendships d') = map key (friendships d)
  /\ (unique_pairs (friendships d) -> unique_pairs (friendships d'))
  /\ (forall e, r = Err e -> d' = d).
Proof.
  intros H. split; [|split; [|split; [|split]]].
  5: { intros e ->. eapply decline_Err. exact H. }
  all: apply decline_outcome in H; destruct H as [-> | ->];
    cbn [users friendships]; unfold unique_pairs;
    rewrite ?update_rows_ids, ?update_rows_keys; auto.
Qed.

Lemma decline_never_adds_or_rekeys_rows_witness :
  map key [Friendships.mk 1 1 2 declined]
  = map key [Friendships.mk 1 1 2 requested].
Proof.
  exact (proj1 (proj2 (proj2
    (decline_never_adds_or_rekeys_rows [] (mkDatabase [1; 2]
       [Friendships.mk 1 1 2 requested]) (mkContext 2) (mkInput 1)
       (Ok 1%nat) (mkDatabase [1; 2] [Friendships.mk 1 1 2 declined])
       eq_refl)))).
Defined.

(** X7: A request can be declined once only: after a successful [decline] by
    [B] on [A] no request from [A] to [B] is pending, and a further
    [decline] or [accept] by [B] on [A] is refused by the guard and
    changes nothing. *)
Theorem decline_answers_the_request_for_good fs d A B n d' fs' :
  run (decline (mkContext B) (mkInput A)) d fs = (Ok n, d') ->
  no_pending_request A B (friendships d') /\
  (hd false fs' = false ->
   run (decline (mkContext B) (mkInput A)) d' fs'
   = (Err (TRPCError BAD_REQUEST), d') /\
   run (accept (mkContext B) (mkInput A)) d' fs'
   = (Err (TRPCError BAD_REQUEST), d')).
Proof.
  intros H. apply decline_Ok in H. destruct H as (_ & -> & _).
  cbn [session_userId friendUserId friendships].
  assert (Hnone : existsb (where3 A B requested)
                    (update_rows (where3 A B requested) declined
                       (friendships d))
                  = false)
    by (apply update_rows_clears; discriminate).
  split.
  - intros row Hrow Hp. apply where3_spec in Hp.
    rewrite existsb_false_forall in Hnone.
    rewrite (Hnone row Hrow) in Hp. discriminate.
  - intros Hfs. unfold run, accept, decline.
    rewrite !canAnswerFriendshipRequest_refuses by assumption.
    split; reflexivity.
Qed.

Lemma decline_answers_the_request_for_good_witness :
  run (accept (mkContext 2) (mkInput 1))
    (mkDatabase [1; 2] [Friendships.mk 1 1 2 declined]) []
  = (Err (TRPCError BAD_REQUEST),
     mkDatabase [1; 2] [Friendships.mk 1 1 2 declined]).
Proof.
  exact (proj2 (proj2
    (decline_answers_the_request_for_good [] (mkDatabase [1; 2]
       [Friendships.mk 1 1 2 requested]) 1 2 1%nat
       (mkDatabase [1; 2] [Friendships.mk 1 1 2 declined]) [] eq_refl)
    eq_refl)).
Defined.

(** ** Send *)

(** X8: An error return of [send], whether from the guard, from the storage
    engine or from the insert, leaves the store as it was. *)
Theorem send_error_changes_nothing fs d ctx input e d' :
  run (send ctx input) d fs = (Err e, d') -> d' = d.
Proof. apply send_Err. Qed.

Lemma send_error_changes_nothing_witness :
  mkDatabase [1; 2] [Friendships.mk 1 1 2 declined]
  = mkDatabase [1; 2] [Friendships.mk 1 1 2 declined].
Proof.
  exact (send_error_changes_nothing [false; false; true]
           (mkDatabase [1; 2] [Friendships.mk 1 1 2 declined])
           (mkContext 1) (mkInput 2) StorageFailure
           (mkDatabase [1; 2] [Friendships.mk 1 1 2 declined]) eq_refl).
Defined.

(** X9: However a call of [send] by [A] to [B] ends, [users] is as before, at
    most one row is added, and each row present before is either as
    before or was a [declined] row of the pair [(A, B)] and is now
    [requested]: no row of another pair, and no [requested] or [accepted]
    row, is ever changed. *)
Theorem send_touches_only_the_pair fs d A B r d' :
  run (send (mkContext A) (mkInput B)) d fs = (r, d') ->
  users d' = users d /\
  (length (friendships d') <= S (length (friendships d)))%nat /\
  forall k row, nth_error (friendships d) k = Some row ->
    nth_error (friendships d') k = Some row \/
    (key row = (A, B) /\ Friendships.status row = declined /\
     nth_error (friendships d') k
     = Some (Friendships.set_status requested row)).
Proof.
  intros H. apply send_outcome in H.
  cbn [session_userId friendUserId] in H.
  destruct H as [-> | [-> | [_ ->]]]; cbn [users friendships].
  - split; [reflexivity|]. split; [lia|]. intros k row Hk. left. exact Hk.
  - split; [reflexivity|]. split.
    { unfold update_rows. rewrite length_map. lia. }
    intros k row Hk. rewrite (update_rows_nth_error _ _ _ _ _ Hk).
    destruct (where3 A B declined row) eqn:E; [|left; reflexivity].
    right. apply where3_spec in E. destruct E as (Hu & Hf & Hs).
    split; [unfold key; congruence|]. split; [exact Hs | reflexivity].
  - split; [reflexivity|]. split.
    { rewrite length_app. cbn. lia. }
    intros k row Hk. left. rewrite nth_error_app1; [exact Hk|].
    apply nth_error_Some. congruence.
Qed.

Lemma send_touches_only_the_pair_witness :
  nth_error
    [Friendships.mk 1 2 1 declined; Friendships.mk 2 1 2 requested] 0
  = Some (Friendships.mk 1 2 1 declined) \/
  (key (Friendships.mk 1 2 1 declined) = (1, 2) /\
   declined = declined /\
   nth_error
     [Friendships.mk 1 2 1 declined; Friendships.mk 2 1 2 requested] 0
   = Some (Friendships.mk 1 2 1 requested)).
Proof.
  exact (proj2 (proj2
    (send_touches_only_the_pair [] (mkDatabase [1; 2]
       [Friendships.mk 1 2 1 declined]) 1 2 (Ok tt)
       (mkDatabase [1; 2]
          [Friendships.mk 1 2 1 declined; Friendships.mk 2 1 2 requested])
       eq_refl)) 0%nat (Friendships.mk 1 2 1 declined) eq_refl).
Defined.

(** ** Calls in sequence *)

Lemma revive_after_decline A B rows :
  unique_pairs rows ->
  existsb (where3 A B requested) rows = true ->
  update_rows (where3 A B declined) requested
    (update_rows (where3 A B requested) declined rows)
  = rows.
Proof.
  intros Huniq Hex. apply existsb_exists in Hex.
  destruct Hex as (r0 & Hr0 & Hp0). apply where3_spec in Hp0.
  unfold update_rows. rewrite map_map.
  rewrite <- (map_id rows) at 2. apply map_ext_in. intros r Hr.
  destruct (where3 A B requested r) eqn:E.
  - apply where3_spec in E. destruct r as [i u f st]. cbn in E.
    destruct E as (-> & -> & ->).
    unfold where3, where_userId, where_friendUserId, where_status.
    cbn. rewrite !Z.eqb_refl. reflexivity.
  - destruct (where3 A B declined r) eqn:E'; [|reflexivity].
    apply where3_spec in E'. exfalso.
    assert (Heq : r = r0).
    { apply (unique_pairs_same_row rows); try assumption.
      unfold key. destruct E' as (-> & -> & _), Hp0 as (-> & -> & _).
      reflexivity. }
    subst r0. destruct E' as (_ & _ & Hs), Hp0 as (_ & _ & Hs').
    congruence.
Qed.

(** X10: Declining and asking again is a round trip: on a store with one row
    per pair, after a successful [decline] by [B] on [A] a [send] by [A]
    to [B] succeeds and gives back the store as it was before the
    [decline]. *)
Theorem decline_then_send_restores_the_request fs fs' d A B n d1 :
  unique_pairs (friendships d) ->
  In B (users d) ->
  reliable fs' ->
  run (decline (mkContext B) (mkInput A)) d fs = (Ok n, d1) ->
  run (send (mkContext A) (mkInput B)) d1 fs' = (Ok tt, d).
Proof.
  intros Huniq Hin Hfs H. apply decline_Ok in H.
  cbn [session_userId friendUserId] in H. destruct H as (Hex & -> & _).
  pose proof (reliable_hd _ Hfs) as H0.
  pose proof (reliable_hd _ (reliable_tl _ Hfs)) as H1.
  pose proof (reliable_hd _ (reliable_tl _ (reliable_tl _ Hfs))) as H2.
  assert (Hdeclined :
            existsb (where3 A B declined)
              (update_rows (where3 A B requested) declined (friendships d))
            = true).
  { apply existsb_exists in Hex. destruct Hex as (r0 & Hr0 & Hp0).
    apply existsb_exists.
    exists (Friendships.set_status declined r0). split.
    - apply (in_map (fun r => if where3 A B requested r
                              then Friendships.set_status declined r
                              else r)) in Hr0.
      rewrite Hp0 in Hr0. exact Hr0.
    - apply where3_spec in Hp0. apply where3_spec. cbn. tauto. }
  unfold run, send.
  rewrite canSendFriendshipRequest_passes by assumption.
  rewrite send_mutation_revives by assumption.
  cbn [db users friendships session_userId friendUserId].
  rewrite revive_after_decline by assumption.
  destruct d; reflexivity.
Qed.

Lemma decline_then_send_restores_the_request_witness :
  run (send (mkContext 1) (mkInput 2))
    (mkDatabase [1; 2]
       [Friendships.mk 1 1 2 declined; Friendships.mk 2 2 1 requested]) []
  = (Ok tt,
     mkDatabase [1; 2]
       [Friendships.mk 1 1 2 requested; Friendships.mk 2 2 1 requested]).
Proof.
  apply (decline_then_send_restores_the_request [] []
           (mkDatabase [1; 2]
              [Friendships.mk 1 1 2 requested;
               Friendships.mk 2 2 1 requested]) 1 2 1%nat).
  - unfold unique_pairs. cbn. repeat constructor.
    + intros [H|[]]. discriminate.
    + intros [].
  - right; left; reflexivity.
  - reflexivity.
  - reflexivity.
Defined.

(** X11: Asking and being accepted: from a store with no edge [(A, B)], a
    [send] by [A] to an existing [B] followed by an [accept] by [B] on [A]
    both succeed and leave the new edge as [(A, B, accepted)] at the end
    of the table; the older rows are those of the store, with the pending
    requests from [B] to [A] accepted.  No row is made for the pair
    [(B, A)]: for distinct users it has a row afterwards exactly when it
    had one before. *)
Theorem send_then_accept_is_one_directional fs1 fs2 d A B :
  reliable fs1 -> reliable fs2 ->
  In B (users d) -> ~ has_edge A B (friendships d) ->
  exists d2,
    run (send (mkContext A) (mkInput B)) d fs1
    = (Ok tt,
       mkDatabase (users d)
         (friendships d
            ++ [Friendships.mk (next_id (friendships d)) A B requested]))
    /\ run (accept (mkContext B) (mkInput A))
         (mkDatabase (users d)
            (friendships d
               ++ [Friendships.mk (next_id (friendships d)) A B
                     requested])) fs2
       = (Ok tt, d2)
    /\ friendships d2
       = update_rows (where3 B A requested) accepted (friendships d)
           ++ [Friendships.mk (next_id (friendships d)) A B accepted]
    /\ (A <> B ->
        (has_edge B A (friendships d2) <-> has_edge B A (friendships d))).
Proof.
  intros Hfs1 Hfs2 Hin Hnone.
  set (new := Friendships.mk (next_id (friendships d)) A B requested).
  assert (Hrows :
            accept_rows (mkContext B) (mkInput A) (friendships d ++ [new])
            = update_rows (where3 B A requested) accepted (friendships d)
                ++ [Friendships.set_status accepted new]).
  { unfold accept_rows. cbn [session_userId friendUserId].
    rewrite !update_rows_app. f_equal.
    - apply update_rows_no_match, where2_none_where3_none.
      rewrite update_rows_existsb_where2. apply no_edge_existsb, Hnone.
    - unfold new, where3, where_userId, where_friendUserId, where_status.
      destruct (A =? B) eqn:E1, (B =? A) eqn:E2;
        repeat (cbn; rewrite ?E1, ?E2, ?Z.eqb_refl, ?andb_false_r);
        reflexivity. }
  exists (mkDatabase (users d)
            (accept_rows (mkContext B) (mkInput A)
               (friendships d ++ [new]))).
  split; [apply send_inserts; assumption|]. split; [|split].
  - apply accept_runs; [|exact Hfs2].
    cbn [session_userId friendUserId friendships].
    rewrite existsb_app. cbn [existsb].
    rewrite (proj2 (where3_spec A B requested new)) by (repeat split).
    apply orb_true_iff. right. reflexivity.
  - cbn [friendships]. exact Hrows.
  - intros Hne. cbn [friendships]. rewrite Hrows.
    rewrite !has_edge_existsb, existsb_app, update_rows_existsb_where2.
    cbn [existsb].
    replace (where2 B A (Friendships.set_status accepted new))
      with false; [rewrite !orb_false_r; tauto|].
    symmetry. destruct (where2 B A _) eqn:E; [|reflexivity].
    apply where2_spec in E. cbn in E. destruct E as [E _]. contradiction.
Qed.

Lemma send_then_accept_is_one_directional_witness :
  exists d2,
    run (accept (mkContext 2) (mkInput 1))
      (mkDatabase [1; 2] [Friendships.mk 1 1 2 requested]) []
    = (Ok tt, d2) /\
    friendships d2 = [Friendships.mk 1 1 2 accepted].
Proof.
  destruct (send_then_accept_is_one_directional [] []
              (mkDatabase [1; 2] []) 1 2)
    as (d2 & _ & Hacc & Hrows & _).
  - reflexivity.
  - reflexivity.
  - right; left; reflexivity.
  - intros (r & [] & _).
  - exists d2. split; assumption.
Defined.
